(** * ezy: the Flask application factory of [src/__init__.py]

    The repository is one function, [create_app], which builds a Flask
    application, registers two GET views ([health] at [/health] and [index]
    at [/]) and returns it.  Everything observable about the result is
    decided by the hosting framework, so the development has three layers:

    - [Werkzeug]: URL rules, the state-machine matcher of
      [werkzeug.routing] (Werkzeug 2.2 and later), the HTTP exceptions and
      the response object;
    - [Flask]: the application object, [add_url_rule] / [get], request
      dispatch and the default error handling of [flask.app];
    - [Ezy]: [src/__init__.py] itself, written over the two layers above,
      and a store of application objects so that two factory calls can be
      told apart.

    The template engine and the static file sender are outside
    collaborators; they are fields of [Env] and every theorem quantifies
    over them. *)

From stdpp Require Import gmap strings list fin_maps.
From Stdlib Require Import Ascii String.

#[local] Set Warnings "-register-all".
Local Open Scope string_scope.
Local Open Scope list_scope.

(** ** Python string helpers *)

Module Py.

(** [str.split(sep)] for a one-character separator. *)
Fixpoint split (sep : ascii) (s : string) : list string :=
  match s with
  | EmptyString => [EmptyString]
  | String c s' =>
      if Ascii.eqb c sep then EmptyString :: split sep s'
      else match split sep s' with
           | [] => [String c EmptyString]
           | w :: ws => String c w :: ws
           end
  end.

(** [sep.join(parts)]. *)
Fixpoint join (sep : string) (parts : list string) : string :=
  match parts with
  | [] => EmptyString
  | [p] => p
  | p :: ps => p +:+ sep +:+ join sep ps
  end.

(** [s.lstrip(c)] for a one-character set. *)
Fixpoint lstrip (c : ascii) (s : string) : string :=
  match s with
  | String a s' => if Ascii.eqb a c then lstrip c s' else s
  | EmptyString => EmptyString
  end.

(** [s.rstrip(chars)]. *)
Fixpoint rstrip (chars : list ascii) (s : string) : string :=
  match s with
  | EmptyString => EmptyString
  | String a s' =>
      match rstrip chars s' with
      | EmptyString =>
          if bool_decide (a ∈ chars) then EmptyString
          else String a EmptyString
      | r => String a r
      end
  end.

Definition startswith (p s : string) : bool := String.prefix p s.

Fixpoint endswith_char (c : ascii) (s : string) : bool :=
  match s with
  | EmptyString => false
  | String a EmptyString => Ascii.eqb a c
  | String _ s' => endswith_char c s'
  end.

(** [s.upper()] on ASCII letters (request methods are ASCII tokens). *)
Definition upper_ascii (c : ascii) : ascii :=
  let n := nat_of_ascii c in
  if (97 <=? n)%nat && (n <=? 122)%nat then ascii_of_nat (n - 32) else c.

Fixpoint upper (s : string) : string :=
  match s with
  | EmptyString => EmptyString
  | String c s' => String (upper_ascii c) (upper s')
  end.

(** [os.path.join(a, b)] on POSIX. *)
Definition path_join (a b : string) : string :=
  if startswith "/" b then b
  else if bool_decide (a = "") || endswith_char "/" a then a +:+ b
  else a +:+ "/" +:+ b.

(** [os.path.basename(p)] on POSIX: what follows the last slash. *)
Definition basename (p : string) : string :=
  List.last (split "/" p) EmptyString.

(** [re.sub("/{2,}?", "/", s)]: the lazy quantifier takes exactly two
    slashes at a time, left to right, without overlap. *)
Fixpoint merge_slashes_sub (s : string) : string :=
  match s with
  | String "/" (String "/" s') => String "/" (merge_slashes_sub s')
  | String c s' => String c (merge_slashes_sub s')
  | EmptyString => EmptyString
  end.

End Py.

(** ** Werkzeug: exceptions, responses and URL routing *)

Module Werkzeug.

(** The exceptions that can arise while a request is served.  The first
    four are [werkzeug.exceptions.HTTPException] subclasses; the others are
    ordinary Python exceptions. *)
Inductive Exc : Type :=
  | NotFound
  | MethodNotAllowed (valid_methods : gset string)
  | RequestRedirect (new_path : string) (query_string : string)
  | InternalServerError (original_exception : option Exc)
  | TemplateNotFound (name : string)
  | TemplateError (message : string)
  | KeyError (key : string)
  | RuntimeError (message : string)
  | ValueError (message : string)
  | TypeError (message : string)
  | AssertionError (message : string).

(** [HTTPException.code]; [None] for an exception that is no HTTPException. *)
Definition code (e : Exc) : option nat :=
  match e with
  | NotFound => Some 404
  | MethodNotAllowed _ => Some 405
  | RequestRedirect _ _ => Some 308
  | InternalServerError _ => Some 500
  | _ => None
  end.

Definition is_http_exception (e : Exc) : bool :=
  match code e with Some _ => true | None => false end.

(** [RoutingException] subclasses ([RequestRedirect] is the only one
    raised by the matcher that reaches Flask). *)
Definition is_routing_exception (e : Exc) : bool :=
  match e with RequestRedirect _ _ => true | _ => false end.

(** The method resolution order of the exception's class, by class name;
    Flask looks error handlers up along it. *)
Definition mro (e : Exc) : list string :=
  match e with
  | NotFound => ["NotFound"; "HTTPException"; "Exception"]
  | MethodNotAllowed _ => ["MethodNotAllowed"; "HTTPException"; "Exception"]
  | RequestRedirect _ _ =>
      ["RequestRedirect"; "HTTPException"; "RoutingException"; "Exception"]
  | InternalServerError _ =>
      ["InternalServerError"; "HTTPException"; "Exception"]
  | TemplateNotFound _ =>
      ["TemplateNotFound"; "OSError"; "LookupError"; "TemplateError";
       "Exception"]
  | TemplateError _ => ["TemplateError"; "Exception"]
  | KeyError _ => ["KeyError"; "LookupError"; "Exception"]
  | RuntimeError _ => ["RuntimeError"; "Exception"]
  | ValueError _ => ["ValueError"; "Exception"]
  | TypeError _ => ["TypeError"; "Exception"]
  | AssertionError _ => ["AssertionError"; "Exception"]
  end.

(** A computation that returns or raises. *)
Inductive Result (A : Type) : Type :=
  | Ok (a : A)
  | Raise (e : Exc).
Arguments Ok {A} a.
Arguments Raise {A} e.

(** The payload of a response.  The HTML pages that Werkzeug writes for an
    HTTP exception (code, name and description of its class) and for a
    redirect are kept symbolic: only text produced by a view or by a
    collaborator is carried as a string. *)
Inductive Body : Type :=
  | Text (s : string)
  | ErrorPage (status : nat)
  | RedirectPage (new_path : string) (query_string : string).

(** [werkzeug.wrappers.Response], with the headers this application can
    set as fields: [Content-Type], [Allow] and [Location]. *)
Record Response : Type := mkResponse {
  status_code : nat;
  content_type : string;
  allow : gset string;
  location : option (string * string);
  data : Body
}.

(** [Response.default_mimetype] is [text/html]; the charset parameter is
    added for [text/] types. *)
Definition default_content_type : string := "text/html; charset=utf-8".

(** [Response(data)]: status 200 and the default content type. *)
Definition response_of_text (s : string) : Response :=
  mkResponse 200 default_content_type ∅ None (Text s).

(** [HTTPException.get_response()] and, for a redirect,
    [werkzeug.utils.redirect(new_url, 308)]. *)
Definition get_response (e : Exc) : Response :=
  match e with
  | RequestRedirect p q =>
      mkResponse 308 default_content_type ∅ (Some (p, q)) (RedirectPage p q)
  | MethodNotAllowed valid =>
      mkResponse 405 default_content_type valid None (ErrorPage 405)
  | _ =>
      let status := default 500 (code e) in
      mkResponse status default_content_type ∅ None (ErrorPage status)
  end.

(** [Response.get_app_iter]: no payload goes out for a HEAD request or for
    the statuses 1xx, 204 and 304.  [request_method] is the raw
    [REQUEST_METHOD] of the WSGI environment. *)
Definition get_wsgi_response (request_method : string) (r : Response)
  : Response :=
  if bool_decide (request_method = "HEAD")
     || (100 <=? status_code r)%nat && (status_code r <? 200)%nat
     || bool_decide (status_code r = 204)
     || bool_decide (status_code r = 304)
  then mkResponse (status_code r) (content_type r) (allow r) (location r)
         (Text "")
  else r.

(** *** Rules *)

(** One part of a compiled rule ([RulePart]): static text, the default
    [string] converter, or the [path] converter, whose part is final (it
    takes everything that is left of the path). *)
Inductive RulePart : Type :=
  | PStatic (content : string)
  | PString
  | PPath.

#[global] Instance RulePart_eq_dec : EqDecision RulePart.
Proof. solve_decision. Defined.

Definition final (p : RulePart) : bool :=
  match p with PPath => true | _ => false end.

(** Converter weights: [UnicodeConverter.weight = 100],
    [PathConverter.weight = 200]. *)
Definition weight (p : RulePart) : nat :=
  match p with PStatic _ => 0 | PString => 100 | PPath => 200 end.

Fixpoint no_newline (s : string) : bool :=
  match s with
  | EmptyString => true
  | String c s' => negb (Ascii.eqb c "010") && no_newline s'
  end.

(** Whether the part's regular expression, closed by [\Z], matches the
    target: [[^/]{1,}] for [string] (the target is one path segment, so it
    holds no slash), [[^/].*?] for [path] (where [.] is any character but a
    newline). *)
Definition part_matches (p : RulePart) (target : string) : bool :=
  match p, target with
  | PStatic c, _ => bool_decide (c = target)
  | PString, String _ _ => true
  | PPath, String c rest => negb (Ascii.eqb c "/") && no_newline rest
  | _, EmptyString => false
  end.

Record Rule : Type := mkRule {
  rule : string;
  methods : gset string;
  endpoint : string;
  strict_slashes : bool;
  merge_slashes : bool;
  provide_automatic_options : bool;
  _parts : list RulePart;
  _converters : list string
}.

Fixpoint contains_char (c : ascii) (s : string) : bool :=
  match s with
  | EmptyString => false
  | String a s' => Ascii.eqb a c || contains_char c s'
  end.

Fixpoint drop_last (s : string) : string :=
  match s with
  | EmptyString => EmptyString
  | String _ EmptyString => EmptyString
  | String a s' => String a (drop_last s')
  end.

(** One slash-separated segment of a rule: static text, [<name>],
    [<string:name>] or [<path:name>], with the variable it binds.
    Segments that mix text with a variable, and the other converters, are
    outside this model ([None]). *)
Definition parse_segment (seg : string) : option (RulePart * list string) :=
  match seg with
  | String "<" body =>
      if Py.endswith_char ">" body then
        match Py.split ":" (drop_last body) with
        | [name] => Some (PString, [name])
        | [conv; name] =>
            if bool_decide (conv = "path") then Some (PPath, [name])
            else if bool_decide (conv = "string") then Some (PString, [name])
            else None
        | _ => None
        end
      else None
  | _ =>
      if contains_char "<" seg || contains_char ">" seg then None
      else Some (PStatic seg, [])
  end.

(** [Rule._parse_rule]: the parts of a rule and its variables, in order.
    A [path] variable has to be the last segment here. *)
Fixpoint parse_segments (segs : list string)
  : option (list RulePart * list string) :=
  match segs with
  | [] => Some ([], [])
  | seg :: rest =>
      match parse_segment seg, parse_segments rest with
      | Some (p, vars), Some (ps, vars') =>
          if final p && negb (bool_decide (rest = [])) then None
          else Some (p :: ps, vars ++ vars')
      | _, _ => None
      end
  end.

(** [Rule(url, methods=..., endpoint=...)] followed by [Rule.compile]
    under a map without host matching: methods are upper-cased, HEAD is
    added when GET is present, and the parts start with the (empty) domain
    part.  [strict_slashes] and [merge_slashes] take the map's defaults. *)
Definition new_rule (url : string) (meths : list string)
    (endpoint : string) : Result Rule :=
  if negb (Py.startswith "/" url) then
    Raise (ValueError "URL rule must start with a slash.")
  else
    let ms : gset string := list_to_set (Py.upper <$> meths) in
    let ms := if bool_decide ("GET" ∈ ms) then ms ∪ {["HEAD"]} else ms in
    match parse_segments (Py.split "/" (Py.merge_slashes_sub url)) with
    | None => Raise (ValueError "malformed url rule")
    | Some (parts, vars) =>
        Ok (mkRule url ms endpoint true true false
              (PStatic "" :: parts) vars)
    end.

(** *** The state machine of [werkzeug.routing.matcher] *)

Inductive State : Type :=
  MkState (rules : list Rule) (static : gmap string State)
          (dynamic : list (RulePart * State)).

Definition st_rules (s : State) : list Rule :=
  match s with MkState r _ _ => r end.
Definition st_static (s : State) : gmap string State :=
  match s with MkState _ st _ => st end.
Definition st_dynamic (s : State) : list (RulePart * State) :=
  match s with MkState _ _ d => d end.

Definition empty_state : State := MkState [] ∅ [].

(** The dynamic transition for [part], created when missing.  Transitions
    are kept in the order [StateMachineMatcher.update] sorts them into:
    by weight, and by age among equals. *)
Fixpoint add_dynamic (part : RulePart) (f : State → State)
    (dyn : list (RulePart * State)) : list (RulePart * State) :=
  match dyn with
  | [] => [(part, f empty_state)]
  | (p, s) :: dyn' =>
      if bool_decide (p = part) then (p, f s) :: dyn'
      else if (weight part <? weight p)%nat
           && negb (bool_decide (part ∈ dyn'.*1))
      then (part, f empty_state) :: (p, s) :: dyn'
      else (p, s) :: add_dynamic part f dyn'
  end.

(** [StateMachineMatcher.add]: follow or create one transition per part,
    then append the rule to the state reached. *)
Fixpoint add_parts (parts : list RulePart) (r : Rule) (state : State)
  : State :=
  match parts with
  | [] => MkState (st_rules state ++ [r]) (st_static state) (st_dynamic state)
  | PStatic c :: ps =>
      let child := default empty_state (st_static state !! c) in
      MkState (st_rules state)
        (<[c := add_parts ps r child]> (st_static state))
        (st_dynamic state)
  | part :: ps =>
      MkState (st_rules state) (st_static state)
        (add_dynamic part (add_parts ps r) (st_dynamic state))
  end.

(** What the inner [_match] gives back: [None], a rule with the values of
    its variables, or the [SlashRequired] exception. *)
Inductive MatchRv : Type :=
  | RvNone
  | RvRule (r : Rule) (values : list string)
  | RvSlashRequired.

Section StateMachine.

Variable method : string.

(** The loop over [state.rules]: the first rule that allows the method is
    returned; the methods of those that do not are added to
    [have_match_for]. *)
Fixpoint try_rules (rs : list Rule) (have_match_for : gset string)
  : option Rule * gset string :=
  match rs with
  | [] => (None, have_match_for)
  | r :: rs' =>
      if bool_decide (method ∈ methods r) then (Some r, have_match_for)
      else try_rules rs' (have_match_for ∪ methods r)
  end.

(** The rules one trailing slash away: the first that allows the method
    asks for the slash when strict, and is returned otherwise. *)
Fixpoint slash_rules (rs : list Rule) (values : list string) : MatchRv :=
  match rs with
  | [] => RvNone
  | r :: rs' =>
      if bool_decide (method ∈ methods r) then
        if strict_slashes r then RvSlashRequired else RvRule r values
      else slash_rules rs' values
  end.

(** The base case of [_match], [parts == []]. *)
Definition match_end (state : State) (values : list string)
    (have_match_for : gset string) : MatchRv * gset string :=
  match try_rules (st_rules state) have_match_for with
  | (Some r, hm) => (RvRule r values, hm)
  | (None, hm) =>
      match st_static state !! "" with
      | Some st' => (slash_rules (st_rules st') values, hm)
      | None => (RvNone, hm)
      end
  end.

(** The last resort of [_match] when the only part left is the empty one
    after a trailing slash: rules that are not strict about slashes. *)
Fixpoint nonstrict_rules (rs : list Rule) (values : list string)
    (have_match_for : gset string) : MatchRv * gset string :=
  match rs with
  | [] => (RvNone, have_match_for)
  | r :: rs' =>
      if strict_slashes r then nonstrict_rules rs' values have_match_for
      else if bool_decide (method ∈ methods r) then
        (RvRule r values, have_match_for)
      else nonstrict_rules rs' values (have_match_for ∪ methods r)
  end.

(** The loop over [state.dynamic].  [rec] is [_match] on the parts after
    the first; a final part is matched against all the parts joined and
    leaves nothing to match. *)
Fixpoint dyn_loop
    (rec : State → list string → gset string → MatchRv * gset string)
    (parts : list string) (dyn : list (RulePart * State))
    (values : list string) (have_match_for : gset string)
  : MatchRv * gset string :=
  match dyn with
  | [] => (RvNone, have_match_for)
  | (test_part, new_state) :: dyn' =>
      let target :=
        if final test_part then Py.join "/" parts
        else List.hd EmptyString parts in
      if part_matches test_part target then
        let '(rv, hm) :=
          if final test_part
          then match_end new_state (values ++ [target]) have_match_for
          else rec new_state (values ++ [target]) have_match_for in
        match rv with
        | RvNone => dyn_loop rec parts dyn' values hm
        | _ => (rv, hm)
        end
      else dyn_loop rec parts dyn' values have_match_for
  end.

(** The inner [_match] of [StateMachineMatcher.match]: static transitions
    first, then the dynamic ones, then rules that tolerate a trailing
    slash. *)
Fixpoint _match (parts : list string) (state : State) (values : list string)
    (have_match_for : gset string) {struct parts} : MatchRv * gset string :=
  match parts with
  | [] => match_end state values have_match_for
  | part :: rest =>
      let '(rv1, hm1) :=
        match st_static state !! part with
        | Some child => _match rest child values have_match_for
        | None => (RvNone, have_match_for)
        end in
      match rv1 with
      | RvNone =>
          let '(rv2, hm2) :=
            dyn_loop (fun st vs hm => _match rest st vs hm) (part :: rest)
              (st_dynamic state) values hm1 in
          match rv2 with
          | RvNone =>
              if bool_decide (part :: rest = [EmptyString])
              then nonstrict_rules (st_rules state) values hm2
              else (RvNone, hm2)
          | _ => (rv2, hm2)
          end
      | _ => (rv1, hm1)
      end
  end.

End StateMachine.

(** [werkzeug.routing.Map]: the rules in registration order and the
    matcher built from them. *)
Record Map : Type := mkMap {
  _rules : list Rule;
  _matcher : State;
  map_merge_slashes : bool
}.

Definition empty_map : Map := mkMap [] empty_state true.

(** [Map.add]. *)
Definition map_add (m : Map) (r : Rule) : Map :=
  mkMap (_rules m ++ [r]) (add_parts (_parts r) r (_matcher m))
        (map_merge_slashes m).

(** What [StateMachineMatcher.match] returns or raises. *)
Inductive MatchResult : Type :=
  | Matched (r : Rule) (view_args : list (string * string))
  | RequestPath (path_info : string)
  | NoMatch (have_match_for : gset string).

(** [StateMachineMatcher.match]: a first attempt on the path as it is,
    and, when that finds nothing, a second one with slashes merged, which
    can only end in a redirect to the merged path. *)
Definition matcher_match (m : Map) (domain path method : string)
  : MatchResult :=
  let '(rv, hm) :=
    _match method (domain :: Py.split "/" path) (_matcher m) [] ∅ in
  match rv with
  | RvSlashRequired => RequestPath (path +:+ "/")
  | RvRule r values => Matched r (zip (_converters r) values)
  | RvNone =>
      if map_merge_slashes m then
        let path' := Py.merge_slashes_sub path in
        let '(rv', hm') :=
          _match method (domain :: Py.split "/" path') (_matcher m) [] hm in
        match rv' with
        | RvSlashRequired => RequestPath (path' +:+ "/")
        | RvNone => NoMatch hm'
        | RvRule r _ =>
            if merge_slashes r then RequestPath path' else NoMatch hm'
        end
      else NoMatch hm
  end.

(** The path [MapAdapter.match] hands to the matcher: the leading slashes
    of [PATH_INFO] collapse to one; an empty path stays empty. *)
Definition path_part (path_info : string) : string :=
  if bool_decide (path_info = "") then ""
  else "/" +:+ Py.lstrip "/" path_info.

(** [MapAdapter.match] for an adapter bound to a request without host or
    subdomain matching; the matcher's exceptions become HTTP exceptions. *)
Definition adapter_match (m : Map) (path_info query_string method : string)
  : Result (Rule * list (string * string)) :=
  match matcher_match m "" (path_part path_info) (Py.upper method) with
  | Matched r args => Ok (r, args)
  | RequestPath p => Raise (RequestRedirect p query_string)
  | NoMatch hm =>
      if bool_decide (hm = ∅) then Raise NotFound
      else Raise (MethodNotAllowed hm)
  end.

(** [MapAdapter.allowed_methods]: match with the impossible method [--]
    and read the methods off the 405. *)
Definition allowed_methods (m : Map) (path_info query_string : string)
  : gset string :=
  match adapter_match m path_info query_string "--" with
  | Raise (MethodNotAllowed valid) => valid
  | _ => ∅
  end.

End Werkzeug.

(** ** Flask: the application object and request dispatch *)

Module Flask.

Import Werkzeug.

(** The WSGI environment of one request, as far as routing and the views
    can look at it. *)
Record Environ : Type := mkEnviron {
  REQUEST_METHOD : string;
  PATH_INFO : string;
  QUERY_STRING : string;
  HTTP_HEADERS : list (string * string);
  wsgi_input : string
}.

(** A compiled Jinja template, named by its source text. *)
Definition Template : Type := string.

(** The collaborators the application calls but does not contain:
    - [get_root_path import_name]: the directory of the importing package
      ([flask.helpers.get_root_path]);
    - [get_template searchpath name]: the Jinja environment's
      [get_or_select_template] over a [FileSystemLoader(searchpath)];
      raises [TemplateNotFound] or another template error;
    - [render template environ]: [Template.render(context)] with Flask's
      standard context, which holds the current request;
    - [send_from_directory directory path environ]:
      [flask.helpers.send_from_directory], which answers with the file or
      raises [NotFound]. *)
Record Env : Type := mkEnv {
  get_root_path : string → string;
  get_template : string → string → Result Template;
  render : Template → Environ → Result string;
  send_from_directory : string → string → Environ → Result Response
}.

(** What a view may return: text, a response object, or an HTTP exception
    used as a response. *)
Inductive ReturnValue : Type :=
  | RvText (s : string)
  | RvResponse (r : Response)
  | RvException (e : Exc).

(** The part of the current application a view reaches through
    [current_app]: where its resources are. *)
Record AppCtx : Type := mkAppCtx {
  ctx_root_path : string;
  ctx_template_folder : option string;
  ctx_static_folder : option string
}.

(** A view: called with the keyword arguments taken from the URL, in the
    context of the current application and request. *)
Definition View : Type :=
  Env → AppCtx → Environ → list (string * string) → Result ReturnValue.

(** A Python function object: its name ([__name__]) and its code. *)
Record Function : Type := mkFunction {
  func_name : string;
  func_code : View
}.

Definition ErrorHandler : Type := Exc → Result ReturnValue.

(** [flask.Flask].  The registries of functions that run before and after
    each request, the blueprints and the session interface are left out;
    a new application has them empty, and nothing below could fill them. *)
Record App : Type := mkApp {
  import_name : string;
  root_path : string;
  template_folder : option string;
  _static_folder : option string;
  _static_url_path : option string;
  url_map : Map;
  view_functions : gmap string Function;
  error_handler_spec : gmap (option nat * string) ErrorHandler;
  debug : bool;
  testing : bool;
  PROPAGATE_EXCEPTIONS : option bool;
  _got_first_request : bool
}.

(** The [static_folder] property: the folder under the root path. *)
Definition static_folder (app : App) : option string :=
  Py.path_join (root_path app) <$> _static_folder app.

Definition has_static_folder (app : App) : bool :=
  bool_decide (is_Some (static_folder app)).

(** The [static_url_path] property: the folder's base name unless a path
    was given. *)
Definition static_url_path (app : App) : option string :=
  match _static_url_path app with
  | Some p => Some p
  | None =>
      (λ folder, Py.rstrip ["/"%char] ("/" +:+ Py.basename folder))
        <$> static_folder app
  end.

Definition app_ctx (app : App) : AppCtx :=
  mkAppCtx (root_path app) (template_folder app) (static_folder app).

(** [render_template(name)]: the application's loader searches
    [root_path/template_folder]; without a template folder there is no
    loader and the template is not found. *)
Definition render_template (name : string) (env : Env) (ctx : AppCtx)
    (environ : Environ) : Result string :=
  match ctx_template_folder ctx with
  | None => Raise (TemplateNotFound name)
  | Some folder =>
      match get_template env (Py.path_join (ctx_root_path ctx) folder) name
      with
      | Ok t => render env t environ
      | Raise e => Raise e
      end
  end.

(** [Flask.send_static_file(filename)], the code of the [static] view. *)
Definition send_static_file : View :=
  λ env ctx environ kw,
    match ctx_static_folder ctx with
    | None =>
        Raise (RuntimeError "'static_folder' must be set to serve static_files.")
    | Some folder =>
        match kw with
        | [(_, filename)] =>
            match send_from_directory env folder filename environ with
            | Ok r => Ok (RvResponse r)
            | Raise e => Raise e
            end
        | _ => Raise (TypeError "send_static_file() takes one argument")
        end
    end.

(** [Flask.add_url_rule(rule, endpoint, view_func, methods=...)].  A setup
    method: refused once the application has served a request.  OPTIONS is
    added, and answered automatically, unless the caller lists it.  An
    endpoint can be bound to one function only (Python compares the
    function objects; here any second binding is refused). *)
Definition add_url_rule (app : App) (url : string) (endpoint : option string)
    (view_func : Function) (meths : option (list string)) : Result App :=
  if _got_first_request app then
    Raise (AssertionError "The setup method 'add_url_rule' can no longer be called on the application.")
  else
    let endpoint := default (func_name view_func) endpoint in
    let meths := Py.upper <$> default ["GET"] meths in
    let auto := negb (bool_decide ("OPTIONS" ∈ meths)) in
    let meths := if auto then meths ++ ["OPTIONS"] else meths in
    match new_rule url meths endpoint with
    | Raise e => Raise e
    | Ok r =>
        let r := mkRule (rule r) (methods r) (Werkzeug.endpoint r)
                   (strict_slashes r) (merge_slashes r) auto
                   (_parts r) (_converters r) in
        match view_functions app !! endpoint with
        | Some _ =>
            Raise (AssertionError "View function mapping is overwriting an existing endpoint function")
        | None =>
            Ok (mkApp (import_name app) (root_path app) (template_folder app)
                  (_static_folder app) (_static_url_path app)
                  (map_add (url_map app) r)
                  (<[endpoint := view_func]> (view_functions app))
                  (error_handler_spec app) (debug app) (testing app)
                  (PROPAGATE_EXCEPTIONS app) (_got_first_request app))
        end
    end.

(** [Flask.get(rule)(f)]: the decorator is [route(rule, methods=["GET"])],
    which registers [f] under its own name. *)
Definition get (app : App) (url : string) (f : Function) : Result App :=
  add_url_rule app url None f (Some ["GET"]).

(** [Flask(import_name, template_folder=..., static_folder=...)].  The
    configuration starts from [default_config]: no testing,
    [PROPAGATE_EXCEPTIONS] unset, and no debugging (the process is taken to
    run without [FLASK_DEBUG], from which Flask would read the flag).  With
    a static folder the [static] rule is registered at once. *)
Definition Flask (env : Env) (import_name : string)
    (template_folder static_folder : option string) : Result App :=
  let app :=
    mkApp import_name (get_root_path env import_name) template_folder
      (Py.rstrip ["\"%char; "/"%char] <$> static_folder) None empty_map ∅ ∅
      false false None false in
  if has_static_folder app then
    add_url_rule app
      (default "" (static_url_path app) +:+ "/<path:filename>")
      (Some "static") (mkFunction "<lambda>" send_static_file) None
  else Ok app.

(** [Flask._find_error_handler]: handlers registered for the code come
    before those registered for a class, and each is searched along the
    exception's method resolution order. *)
Definition _find_error_handler (app : App) (e : Exc) : option ErrorHandler :=
  let along (c : option nat) :=
    list_find (λ cls, is_Some (error_handler_spec app !! (c, cls))) (mro e)
    ≫= λ '(_, cls), error_handler_spec app !! (c, cls) in
  match code e with
  | Some c =>
      match along (Some c) with Some h => Some h | None => along None end
  | None => along None
  end.

(** [Flask.handle_http_exception]. *)
Definition handle_http_exception (app : App) (e : Exc) : Result ReturnValue :=
  if is_routing_exception e then Ok (RvException e)
  else match _find_error_handler app e with
       | None => Ok (RvException e)
       | Some handler => handler e
       end.

(** [Flask.handle_user_exception]: an HTTP exception becomes a response;
    any other exception goes to its registered handler, and is raised
    again when there is none. *)
Definition handle_user_exception (app : App) (e : Exc) : Result ReturnValue :=
  if is_http_exception e then handle_http_exception app e
  else match _find_error_handler app e with
       | None => Raise e
       | Some handler => handler e
       end.

(** [Flask.make_response]. *)
Definition make_response (rv : ReturnValue) : Response :=
  match rv with
  | RvText s => response_of_text s
  | RvResponse r => r
  | RvException e => get_response e
  end.

(** [Flask.handle_exception]: the exception nobody handled.  It is raised
    again out of the application when exceptions propagate (debugging or
    testing); otherwise the answer is a 500, through the handler for
    [InternalServerError] if one is registered. *)
Definition handle_exception (app : App) (e : Exc) : Result Response :=
  let propagate :=
    default (testing app || debug app) (PROPAGATE_EXCEPTIONS app) in
  if propagate then Raise e
  else
    let server_error := InternalServerError (Some e) in
    match _find_error_handler app server_error with
    | None => Ok (make_response (RvException server_error))
    | Some handler =>
        match handler server_error with
        | Ok rv => Ok (make_response rv)
        | Raise e' => Raise e'
        end
    end.

(** [Flask.make_default_options_response]. *)
Definition make_default_options_response (app : App) (environ : Environ)
  : Response :=
  mkResponse 200 default_content_type
    (allowed_methods (url_map app) (PATH_INFO environ) (QUERY_STRING environ))
    None (Text "").

(** [Flask.dispatch_request], given the outcome of URL matching: the
    value returned or the exception raised, and the endpoints whose view
    function was called. *)
Definition dispatch_request (env : Env) (app : App) (environ : Environ)
    (routing : Result (Rule * list (string * string)))
  : Result ReturnValue * list string :=
  match routing with
  | Raise routing_exception => (Raise routing_exception, [])
  | Ok (r, view_args) =>
      if provide_automatic_options r
         && bool_decide (Py.upper (REQUEST_METHOD environ) = "OPTIONS")
      then (Ok (RvResponse (make_default_options_response app environ)), [])
      else match view_functions app !! endpoint r with
           | Some f =>
               (func_code f env (app_ctx app) environ view_args, [endpoint r])
           | None => (Raise (KeyError (endpoint r)), [])
           end
  end.

(** What [wsgi_app] did with one request: the response sent, or the
    exception that left the application, and the views that were called. *)
Record Served : Type := mkServed {
  outcome : Result Response;
  called : list string
}.

(** [Flask.full_dispatch_request] without the (empty) pre-processing. *)
Definition full_dispatch_request (env : Env) (app : App) (environ : Environ)
  : Result Response * list string :=
  let routing :=
    adapter_match (url_map app) (PATH_INFO environ) (QUERY_STRING environ)
      (REQUEST_METHOD environ) in
  let '(rv, calls) := dispatch_request env app environ routing in
  let rv :=
    match rv with
    | Raise e => handle_user_exception app e
    | Ok v => Ok v
    end in
  match rv with
  | Ok v => (Ok (make_response v), calls)
  | Raise e => (Raise e, calls)
  end.

(** [Flask.wsgi_app]: the request is matched and dispatched, an exception
    that escapes goes to [handle_exception], and the response is sent.
    Serving marks the application as having got its first request. *)
Definition wsgi_app (env : Env) (app : App) (environ : Environ)
  : Served * App :=
  let app' :=
    mkApp (import_name app) (root_path app) (template_folder app)
      (_static_folder app) (_static_url_path app) (url_map app)
      (view_functions app) (error_handler_spec app) (debug app)
      (testing app) (PROPAGATE_EXCEPTIONS app) true in
  let '(response, calls) := full_dispatch_request env app' environ in
  let response :=
    match response with
    | Ok r => Ok r
    | Raise e => handle_exception app' e
    end in
  let sent :=
    match response with
    | Ok r => Ok (get_wsgi_response (REQUEST_METHOD environ) r)
    | Raise e => Raise e
    end in
  (mkServed sent calls, app').

End Flask.

(** ** The repository: [src/__init__.py] *)

Module Ezy.

Import Werkzeug Flask.

(** Application objects live in a store and are named by their address:
    two calls of the factory give two objects. *)
Abbreviation Store := (gmap nat App).

(** Code that reads and writes the store and may raise. *)
Definition M (A : Type) : Type := Store → Result A * Store.

#[global] Instance M_ret : MRet M := λ A a σ, (Ok a, σ).
#[global] Instance M_bind : MBind M := λ A B k m σ,
  match m σ with
  | (Ok a, σ') => k a σ'
  | (Raise e, σ') => (Raise e, σ')
  end.

(** A call that builds an object: the object gets an unused address. *)
Definition new (init : Result App) : M nat := λ σ,
  match init with
  | Ok app => let l := fresh (dom σ) in (Ok l, <[l := app]> σ)
  | Raise e => (Raise e, σ)
  end.

(** A call of a method that updates the object at [l] in place. *)
Definition update (l : nat) (method : App → Result App) : M unit := λ σ,
  match σ !! l with
  | Some app =>
      match method app with
      | Ok app' => (Ok (), <[l := app']> σ)
      | Raise e => (Raise e, σ)
      end
  | None => (Raise (RuntimeError "no such object"), σ)
  end.

(** The host serves one request with the application at [l]. *)
Definition serve (env : Env) (l : nat) (environ : Environ) (σ : Store)
  : option (Served * Store) :=
  match σ !! l with
  | Some app =>
      let '(served, app') := wsgi_app env app environ in
      Some (served, <[l := app']> σ)
  | None => None
  end.


Inductive Event : Type :=
  | Request (l : nat) (environ : Environ)
  | Factory.

Section Package.

(** The import name of the package this [__init__.py] belongs to. *)
Variable __name__ : string.

(** [def health(): return "ok"].  The function has no parameters, so a
    call with keyword arguments is a [TypeError] before the body runs. *)
Definition health : View := λ _ _ _ kw,
  match kw with
  | [] => Ok (RvText "ok")
  | _ => Raise (TypeError "health() got an unexpected keyword argument")
  end.

(** [def index(): return render_template("main.html")]. *)
Definition index : View := λ env ctx environ kw,
  match kw with
  | [] =>
      match render_template "main.html" env ctx environ with
      | Ok text => Ok (RvText text)
      | Raise e => Raise e
      end
  | _ => Raise (TypeError "index() got an unexpected keyword argument")
  end.

(** [def create_app()]: build the application, register the two views
    with [@app.get], return the application. *)
Definition create_app (env : Env) : M nat :=
  app ← new (Flask env __name__ (Some "templates") (Some "static"));
  _ ← update app (λ a, get a "/health" (mkFunction "health" health));
  _ ← update app (λ a, get a "/" (mkFunction "index" index));
  mret app.


(** What can happen in the process once an application exists: one of
    the applications serves a request, or the factory is called again. *)
Fixpoint run (env : Env) (events : list Event) (σ : Store) : Store :=
  match events with
  | [] => σ
  | Request l environ :: rest =>
      run env rest
        match serve env l environ σ with
        | Some (_, σ') => σ'
        | None => σ
        end
  | Factory :: rest => run env rest (create_app env σ).2
  end.

(** An application instance produced by the factory, at any time of its
    life: as returned, or after serving a request. *)
Inductive instance (env : Env) : App → Prop :=
  | instance_created σ l σ' app :
      create_app env σ = (Ok l, σ') → σ' !! l = Some app → instance env app
  | instance_served app environ :
      instance env app → instance env (wsgi_app env app environ).2.

End Package.

End Ezy.

(** ** The application the factory builds, written out *)

Module Built.

Import Werkzeug Flask Ezy.

Definition GET_HEAD_OPTIONS : gset string := {[ "GET"; "HEAD"; "OPTIONS" ]}.

Definition static_rule : Rule :=
  mkRule "/static/<path:filename>" GET_HEAD_OPTIONS "static" true true true
    [PStatic ""; PStatic ""; PStatic "static"; PPath] ["filename"].

Definition health_rule : Rule :=
  mkRule "/health" GET_HEAD_OPTIONS "health" true true true
    [PStatic ""; PStatic ""; PStatic "health"] [].

Definition index_rule : Rule :=
  mkRule "/" GET_HEAD_OPTIONS "index" true true true
    [PStatic ""; PStatic ""; PStatic ""] [].

Definition route_table : list Rule := [static_rule; health_rule; index_rule].

(** The matcher's states: the domain part and the part before the first
    slash are empty, and below them come the first path segments. *)
Definition leaf (r : Rule) : State := MkState [r] ∅ [].

Definition static_state : State := MkState [] ∅ [(PPath, leaf static_rule)].

Definition trie (segments : gmap string State) : State :=
  MkState []
    {[ "" := MkState [] {[ "" := MkState [] segments [] ]} [] ]} [].

Definition static_view : Function := mkFunction "<lambda>" send_static_file.
Definition health_view : Function := mkFunction "health" health.
Definition index_view : Function := mkFunction "index" index.

(** An application of the package [name] rooted at [root] with the given
    rules, first path segments and views; [served] tells whether it has
    served a request yet. *)
Definition app_of (name root : string) (rules : list Rule)
    (segments : gmap string State) (views : gmap string Function)
    (served : bool) : App :=
  mkApp name root (Some "templates") (Some "static") None
    (mkMap rules (trie segments) true) views ∅ false false None served.

(** After [Flask(...)], after [@app.get("/health")], and at the end. *)
Definition segments1 : gmap string State := {[ "static" := static_state ]}.
Definition segments2 : gmap string State :=
  <["health" := leaf health_rule]> segments1.
Definition segments : gmap string State :=
  <["" := leaf index_rule]> segments2.

Definition views1 : gmap string Function := {[ "static" := static_view ]}.
Definition views2 : gmap string Function := <["health" := health_view]> views1.
Definition views : gmap string Function := <["index" := index_view]> views2.

Definition built1 (name root : string) : App :=
  app_of name root [static_rule] segments1 views1 false.
Definition built2 (name root : string) : App :=
  app_of name root [static_rule; health_rule] segments2 views2 false.
Definition built (name root : string) (served : bool) : App :=
  app_of name root route_table segments views served.

(** Its URL map. *)
Definition the_map : Map := mkMap route_table (trie segments) true.

(** The response to the text [ok] returned by [health]. *)
Definition ok_response : Response := response_of_text "ok".

End Built.

(** ** A deployment to run the model on *)

Module Example.

Import Werkzeug Flask Ezy Built.

(** The package [ezy] installed under [/srv/ezy], with a template
    [main.html] and one static file [app.js]. *)
Definition env : Env :=
  mkEnv (λ _, "/srv/ezy")
    (λ dir name,
       if bool_decide (dir = "/srv/ezy/templates")
          && bool_decide (name = "main.html")
       then Ok "<h1>ezy</h1>" else Raise (TemplateNotFound name))
    (λ template _, Ok template)
    (λ dir file _,
       if bool_decide (dir = "/srv/ezy/static") && bool_decide (file = "app.js")
       then Ok (mkResponse 200 "text/javascript; charset=utf-8" ∅ None
                  (Text "let x;"))
       else Raise NotFound).


Definition app : App := built "ezy" "/srv/ezy" false.

(** A request with no query string, no headers and no body. *)
Definition request (method path : string) : Environ :=
  mkEnviron method path "" [] "".


End Example.

(** * Properties *)

(** ** Strings and paths *)

Module PyFacts.

Import Py.

Lemma append_cons (x : ascii) (a b : string) :
  String x a +:+ b = String x (a +:+ b).
Proof. reflexivity. Qed.

Lemma append_assoc (a b c : string) : (a +:+ b) +:+ c = a +:+ (b +:+ c).
Proof.
  induction a as [|x a IH]; [done |]. rewrite !append_cons. by f_equal.
Qed.

Lemma split_nonempty (sep : ascii) (s : string) : split sep s ≠ [].
Proof.
  induction s as [|c s IH]; simpl; [done |].
  destruct (Ascii.eqb c sep); [done |].
  by destruct (split sep s).
Qed.

(** Splitting at a separator that is in plain sight. *)
Lemma split_app (sep : ascii) (a b : string) :
  split sep (a +:+ String sep b) = split sep a ++ split sep b.
Proof.
  induction a as [|c a IH]; simpl.
  - by rewrite Ascii.eqb_refl.
  - destruct (Ascii.eqb c sep); [by rewrite IH |].
    rewrite IH. pose proof (split_nonempty sep a) as Hne.
    by destruct (split sep a).
Qed.

Lemma split_cons_sep (sep : ascii) (s : string) :
  split sep (String sep s) = EmptyString :: split sep s.
Proof. simpl. by rewrite Ascii.eqb_refl. Qed.

Lemma join_split (s : string) : join "/" (split "/" s) = s.
Proof.
  induction s as [|c s IH]; [done |].
  simpl split. destruct (Ascii.eqb_spec c "/") as [->|Hc].
  - pose proof (split_nonempty "/" s) as Hne.
    destruct (split "/" s) as [|w ws] eqn:E; [done |].
    change (join "/" ("" :: w :: ws)) with ("/" +:+ join "/" (w :: ws)).
    by rewrite IH.
  - pose proof (split_nonempty "/" s) as Hne.
    destruct (split "/" s) as [|w ws] eqn:E; [done |].
    destruct ws as [|w' ws]; simpl in *; by rewrite <- IH.
Qed.

Lemma endswith_char_app (c : ascii) (s : string) :
  endswith_char c s = true → ∃ s', s = s' +:+ String c EmptyString.
Proof.
  induction s as [|a s IH]; simpl; [done |].
  destruct s as [|b s].
  - intros ->%Ascii.eqb_eq. by exists EmptyString.
  - intros [s' ->]%IH. by exists (String a s').
Qed.

(** The base name of a folder joined under any root is the folder. *)
Lemma basename_path_join_static (root : string) :
  basename (path_join root "static") = "static".
Proof.
  unfold path_join, basename. simpl startswith. cbv iota.
  destruct (bool_decide (root = "") || endswith_char "/" root) eqn:E.
  - apply orb_prop in E as [E|E].
    + apply bool_decide_eq_true in E as ->. reflexivity.
    + apply endswith_char_app in E as [r ->].
      rewrite append_assoc. change ("/" +:+ "static") with (String "/" "static").
      rewrite split_app. apply (List.last_last _ "static").
  - change (root +:+ "/" +:+ "static") with (root +:+ String "/" "static").
    rewrite split_app. apply (List.last_last _ "static").
Qed.








End PyFacts.

(** ** What the factory builds *)

Module Construction.

Import Werkzeug Flask Ezy Built.

Lemma static_url_path_static (app : App) :
  _static_url_path app = None → _static_folder app = Some "static" →
  static_url_path app = Some "/static".
Proof.
  intros H1 H2. unfold static_url_path, static_folder. rewrite H1, H2.
  cbn [fmap option_fmap option_map]. by rewrite PyFacts.basename_path_join_static.
Qed.

(** The three steps of the factory on the application object. *)
Lemma Flask_built (env : Env) (name : string) :
  Flask env name (Some "templates") (Some "static")
  = Ok (built1 name (get_root_path env name)).
Proof.
  unfold Flask. rewrite static_url_path_static by done.
  vm_compute. reflexivity.
Qed.

Lemma get_health_built (name root : string) :
  get (built1 name root) "/health" health_view = Ok (built2 name root).
Proof. vm_compute. reflexivity. Qed.

Lemma get_index_built (name root : string) :
  get (built2 name root) "/" index_view = Ok (built name root false).
Proof. vm_compute. reflexivity. Qed.

(** The factory never raises: it stores the application written out in
    [Built] at an address that was free. *)
Lemma create_app_built (name : string) (env : Env) (σ : Store) :
  create_app name env σ
  = (Ok (fresh (dom σ)),
     <[fresh (dom σ) := built name (get_root_path env name) false]> σ).
Proof.
  unfold create_app, mbind, M_bind, mret, M_ret, new, update.
  rewrite Flask_built. cbv zeta.
  rewrite lookup_insert_eq.
  change (mkFunction "health" health) with health_view.
  rewrite get_health_built, insert_insert_eq, lookup_insert_eq.
  change (mkFunction "index" index) with index_view.
  by rewrite get_index_built, insert_insert_eq.
Qed.

Lemma fresh_not_in_store (σ : Store) : σ !! fresh (dom σ) = None.
Proof. apply not_elem_of_dom, is_fresh. Qed.

(** Serving a request changes one thing in the application: the mark
    that it has served. *)
Lemma wsgi_app_built (env : Env) (name root : string) (served : bool)
    (environ : Environ) :
  (wsgi_app env (built name root served) environ).2 = built name root true.
Proof.
  unfold wsgi_app.
  destruct (full_dispatch_request _ _ _) as [response calls]. reflexivity.
Qed.

(** Every instance of the factory is the application written out. *)
Lemma instance_built (name : string) (env : Env) (app : App) :
  instance name env app →
  ∃ served, app = built name (get_root_path env name) served.
Proof.
  induction 1 as [σ l σ' app Hc Hl | app environ _ [served ->]].
  - rewrite create_app_built in Hc. injection Hc as <- <-.
    rewrite lookup_insert_eq in Hl. injection Hl as <-. by exists false.
  - exists true. apply wsgi_app_built.
Qed.

(** Serving requests with the application at [l] leaves it the
    application written out, and leaves every other object alone. *)
Lemma serve_built (env : Env) (name root : string) (served : bool)
    (l : nat) (environ : Environ) (σ : Store) :
  σ !! l = Some (built name root served) →
  ∃ s, serve env l environ σ = Some (s, <[l := built name root true]> σ).
Proof.
  intros Hl. unfold serve. rewrite Hl.
  pose proof (wsgi_app_built env name root served environ) as H.
  destruct (wsgi_app env (built name root served) environ) as [s app'].
  simpl in H. subst app'. by exists s.
Qed.




(** Whatever happens in the process, the object at [l] stays the
    application written out. *)
Lemma run_built (name : string) (env : Env) (l : nat) (events : list Event) :
  ∀ (served : bool) (σ : Store),
    σ !! l = Some (built name (get_root_path env name) served) →
    ∃ served', run name env events σ !! l
               = Some (built name (get_root_path env name) served').
Proof.
  induction events as [|[l' environ|] rest IH]; intros served σ Hl.
  - by exists served.
  - cbn [run]. destruct (decide (l' = l)) as [-> | Hne].
    + destruct (serve_built env name _ served l environ σ Hl) as [s ->].
      apply (IH true), lookup_insert_eq.
    + apply (IH served). unfold serve. destruct (σ !! l') as [app|]; [| done].
      destruct (wsgi_app env app environ) as [s app'].
      by rewrite lookup_insert_ne.
  - cbn [run]. rewrite create_app_built. cbn [snd].
    apply (IH served). rewrite lookup_insert_ne; [done |].
    intros Heq. pose proof (fresh_not_in_store σ) as Hf.
    rewrite Heq in Hf. congruence.
Qed.

End Construction.

(** ** Routing over the route table of the factory *)

Module Routing.

Import Werkzeug Flask Ezy Built.

Lemma _match_cons (m part : string) (rest : list string) (st : State)
    (vs : list string) (hm : gset string) :
  _match m (part :: rest) st vs hm =
  let '(rv1, hm1) :=
    match st_static st !! part with
    | Some child => _match m rest child vs hm
    | None => (RvNone, hm)
    end in
  match rv1 with
  | RvNone =>
      let '(rv2, hm2) :=
        dyn_loop m (λ st vs hm, _match m rest st vs hm) (part :: rest)
          (st_dynamic st) vs hm1 in
      match rv2 with
      | RvNone =>
          if bool_decide (part :: rest = [EmptyString])
          then nonstrict_rules m (st_rules st) vs hm2
          else (RvNone, hm2)
      | _ => (rv2, hm2)
      end
  | _ => (rv1, hm1)
  end.
Proof. reflexivity. Qed.

(** A state with static transitions only and no rule of its own passes
    the search on to the child for the part, if there is one. *)
Lemma match_static_only (m part : string) (rest : list string)
    (children : gmap string State) (vs : list string) (hm : gset string) :
  _match m (part :: rest) (MkState [] children []) vs hm =
  match children !! part with
  | Some child => _match m rest child vs hm
  | None => (RvNone, hm)
  end.
Proof.
  rewrite _match_cons. cbn [st_static st_dynamic st_rules dyn_loop].
  destruct (children !! part) as [child|].
  - destruct (_match m rest child vs hm) as [[] hm1]; try done.
    cbn [nonstrict_rules]. by case_bool_decide.
  - cbn [nonstrict_rules]. by case_bool_decide.
Qed.

(** The search below the two empty parts every rule starts with. *)
Lemma match_trie (m x : string) (rest : list string)
    (segs : gmap string State) (vs : list string) (hm : gset string) :
  _match m ("" :: "" :: x :: rest) (trie segs) vs hm =
  match segs !! x with
  | Some child => _match m rest child vs hm
  | None => (RvNone, hm)
  end.
Proof.
  unfold trie. rewrite match_static_only, lookup_singleton_eq.
  rewrite match_static_only, lookup_singleton_eq.
  apply match_static_only.
Qed.

(** A state that holds one rule, strict about slashes, and nothing else. *)
Lemma match_leaf (m : string) (r : Rule) (rest : list string)
    (vs : list string) (hm : gset string) :
  strict_slashes r = true →
  _match m rest (leaf r) vs hm =
  match rest with
  | [] =>
      if bool_decide (m ∈ methods r) then (RvRule r vs, hm)
      else (RvNone, hm ∪ methods r)
  | _ => (RvNone, hm)
  end.
Proof.
  intros Hs. destruct rest as [|y rest].
  - cbn [_match]. unfold match_end. cbn [leaf st_rules st_static try_rules].
    case_bool_decide; [done |]. by rewrite lookup_empty.
  - rewrite _match_cons. cbn [leaf st_static st_dynamic st_rules dyn_loop].
    rewrite lookup_empty. cbn [nonstrict_rules]. rewrite Hs.
    by case_bool_decide.
Qed.

(** The state after [/static]: everything that follows goes to the
    [path] converter. *)
Lemma match_static_state (m : string) (rest : list string)
    (vs : list string) (hm : gset string) :
  _match m rest static_state vs hm =
  match rest with
  | [] => (RvNone, hm)
  | _ =>
      if part_matches PPath (Py.join "/" rest) then
        if bool_decide (m ∈ GET_HEAD_OPTIONS)
        then (RvRule static_rule (vs ++ [Py.join "/" rest]), hm)
        else (RvNone, hm ∪ GET_HEAD_OPTIONS)
      else (RvNone, hm)
  end.
Proof.
  destruct rest as [|y rest].
  - cbn [_match]. unfold match_end.
    cbn [static_state st_rules st_static try_rules]. by rewrite lookup_empty.
  - rewrite _match_cons.
    cbn [static_state st_static st_dynamic st_rules dyn_loop final].
    rewrite lookup_empty.
    destruct (part_matches PPath (Py.join "/" (y :: rest))).
    + unfold match_end. cbn [leaf st_rules st_static try_rules static_rule methods].
      case_bool_decide; [done |]. rewrite lookup_empty.
      cbn [nonstrict_rules]. by case_bool_decide.
    + cbn [nonstrict_rules]. by case_bool_decide.
Qed.

(** The first path segments the route table knows. *)
Lemma segments_index : segments !! "" = Some (leaf index_rule).
Proof. reflexivity. Qed.

Lemma segments_health : segments !! "health" = Some (leaf health_rule).
Proof. reflexivity. Qed.

Lemma segments_static : segments !! "static" = Some static_state.
Proof. reflexivity. Qed.

Lemma segments_other (x : string) :
  x ≠ "" → x ≠ "health" → x ≠ "static" → segments !! x = None.
Proof.
  intros H1 H2 H3. unfold segments, segments2, segments1.
  rewrite !lookup_insert_ne by done. by rewrite lookup_singleton_ne.
Qed.

Lemma GET_HEAD_OPTIONS_nonempty (hm : gset string) :
  hm ∪ GET_HEAD_OPTIONS ≠ ∅.
Proof.
  intros H. assert ("GET" ∈ hm ∪ GET_HEAD_OPTIONS) as Hin.
  { unfold GET_HEAD_OPTIONS. set_solver. }
  rewrite H in Hin. set_solver.
Qed.

(** Matching a path of one segment that leads to a rule: the rule, or a
    405 that lists its methods. *)
Lemma adapter_match_leaf (p x qs m : string) (r : Rule) :
  path_part p = p → Py.split "/" p = [""; x] →
  Py.merge_slashes_sub p = p →
  segments !! x = Some (leaf r) → strict_slashes r = true →
  methods r = GET_HEAD_OPTIONS → _converters r = [] →
  adapter_match the_map p qs m =
  if bool_decide (Py.upper m ∈ GET_HEAD_OPTIONS) then Ok (r, [])
  else Raise (MethodNotAllowed GET_HEAD_OPTIONS).
Proof.
  intros Hp Hsplit Hmerge Hx Hstrict Hmeths Hconv.
  unfold adapter_match, matcher_match. rewrite Hp, Hsplit.
  cbn [the_map _matcher map_merge_slashes].
  rewrite match_trie, Hx, match_leaf by done. rewrite Hmeths.
  case_bool_decide as Hm.
  - by rewrite Hconv.
  - rewrite Hmerge, Hsplit, match_trie, Hx, match_leaf by done.
    rewrite Hmeths, bool_decide_eq_false_2 by done.
    rewrite bool_decide_eq_false_2 by apply GET_HEAD_OPTIONS_nonempty.
    by rewrite (left_id_L ∅ (∪)), (idemp_L (∪)).
Qed.

Lemma adapter_match_health (qs m : string) :
  adapter_match the_map "/health" qs m =
  if bool_decide (Py.upper m ∈ GET_HEAD_OPTIONS) then Ok (health_rule, [])
  else Raise (MethodNotAllowed GET_HEAD_OPTIONS).
Proof. by apply (adapter_match_leaf "/health" "health"). Qed.

Lemma adapter_match_index (qs m : string) :
  adapter_match the_map "/" qs m =
  if bool_decide (Py.upper m ∈ GET_HEAD_OPTIONS) then Ok (index_rule, [])
  else Raise (MethodNotAllowed GET_HEAD_OPTIONS).
Proof. by apply (adapter_match_leaf "/" ""). Qed.




End Routing.

(** ** Serving one request with the application of the factory *)

Module Serving.

Import Werkzeug Flask Ezy Built.

(** No error handler is registered, so none is ever found. *)
Lemma find_error_handler_built (name root : string) (served : bool)
    (e : Exc) :
  _find_error_handler (built name root served) e = None.
Proof.
  unfold _find_error_handler. cbn [built app_of error_handler_spec].
  assert (∀ c l,
    list_find (λ cls : string,
      is_Some ((∅ : gmap (option nat * string) ErrorHandler) !! (c, cls))) l
    = None) as Hnone.
  { intros c l. apply list_find_None, Forall_forall. intros cls _.
    rewrite lookup_empty. by intros [? ?]. }
  destruct (code e); by rewrite !Hnone.
Qed.



Section Built.

Variables (env : Env) (name root : string) (served : bool).
Variable environ : Environ.

Let app : App := built name root served.
Let routing : Result (Rule * list (string * string)) :=
  adapter_match the_map (PATH_INFO environ) (QUERY_STRING environ)
    (REQUEST_METHOD environ).


(** Routing found a rule and the request is an OPTIONS request answered
    automatically: no view is called. *)
Lemma served_options (r : Rule) (args : list (string * string)) :
  routing = Ok (r, args) → provide_automatic_options r = true →
  Py.upper (REQUEST_METHOD environ) = "OPTIONS" →
  (wsgi_app env app environ).1
  = mkServed
      (Ok (get_wsgi_response (REQUEST_METHOD environ)
             (make_default_options_response (built name root true) environ)))
      [].
Proof.
  unfold routing. intros Hr Hauto Hm.
  unfold wsgi_app, full_dispatch_request, app.
  change (url_map (mkApp _ _ _ _ _ _ _ _ _ _ _ _)) with the_map.
  rewrite Hr.
  change (mkApp _ _ _ _ _ _ _ _ _ _ _ _) with (built name root true).
  cbn [dispatch_request]. rewrite Hauto, Hm. reflexivity.
Qed.

(** Routing found a rule and its view is called.  What the view returns
    becomes the response; an HTTP exception it raises becomes its own
    response; any other exception becomes the 500 of
    [InternalServerError]. *)
Lemma served_view (r : Rule) (args : list (string * string)) (f : Function) :
  routing = Ok (r, args) →
  provide_automatic_options r
    && bool_decide (Py.upper (REQUEST_METHOD environ) = "OPTIONS") = false →
  views !! endpoint r = Some f →
  (wsgi_app env app environ).1
  = mkServed
      (Ok (get_wsgi_response (REQUEST_METHOD environ)
             match func_code f env (app_ctx (built name root true)) environ
                     args with
             | Ok rv => make_response rv
             | Raise e =>
                 if is_http_exception e then get_response e
                 else get_response (InternalServerError (Some e))
             end))
      [endpoint r].
Proof.
  unfold routing. intros Hr Hopt Hf.
  unfold wsgi_app, full_dispatch_request, app.
  change (url_map (mkApp _ _ _ _ _ _ _ _ _ _ _ _)) with the_map.
  rewrite Hr.
  change (mkApp _ _ _ _ _ _ _ _ _ _ _ _) with (built name root true).
  cbn [dispatch_request]. rewrite Hopt.
  change (view_functions (built name root true)) with views. rewrite Hf.
  destruct (func_code f env _ environ args) as [rv|e]; [done |].
  unfold handle_user_exception, handle_http_exception.
  destruct (is_http_exception e) eqn:He.
  - rewrite find_error_handler_built. by destruct (is_routing_exception e).
  - rewrite find_error_handler_built. unfold handle_exception.
    cbn [built app_of testing debug PROPAGATE_EXCEPTIONS default orb].
    change (mkApp _ _ _ _ _ _ _ _ _ _ _ _) with (built name root true).
    by rewrite find_error_handler_built.
Qed.

End Built.

End Serving.

(** ** The two views *)

Module Views.

Import Werkzeug Flask Ezy Built.

Section Instance.

Variables (name : string) (env : Env) (app : App) (environ : Environ).
Hypothesis Hinst : instance name env app.

(** GET [/health] calls [health] and sends what it returns. *)
Lemma health_get :
  REQUEST_METHOD environ = "GET" → PATH_INFO environ = "/health" →
  (wsgi_app env app environ).1 = mkServed (Ok ok_response) ["health"].
Proof using Hinst.
  intros Hm Hp. destruct (Construction.instance_built name env app Hinst) as [served ->].
  rewrite (Serving.served_view env name _ served environ health_rule []
             health_view).
  - by rewrite Hm.
  - rewrite Hp, Hm. apply Routing.adapter_match_health.
  - by rewrite Hm.
  - reflexivity.
Qed.


(** HEAD is served by the view of GET, and goes out without a body. *)
Lemma health_head :
  REQUEST_METHOD environ = "HEAD" → PATH_INFO environ = "/health" →
  (wsgi_app env app environ).1
  = mkServed (Ok (mkResponse 200 default_content_type ∅ None (Text "")))
      ["health"].
Proof using Hinst.
  intros Hm Hp.
  destruct (Construction.instance_built name env app Hinst) as [served ->].
  rewrite (Serving.served_view env name _ served environ health_rule []
             health_view).
  - by rewrite Hm.
  - rewrite Hp, Hm. apply Routing.adapter_match_health.
  - by rewrite Hm.
  - reflexivity.
Qed.

(** OPTIONS on either path is answered by Flask itself with the methods
    of the rule; the view is not called. *)
Lemma options_answered :
  REQUEST_METHOD environ = "OPTIONS" →
  PATH_INFO environ = "/health" ∨ PATH_INFO environ = "/" →
  (wsgi_app env app environ).1
  = mkServed
      (Ok (mkResponse 200 default_content_type GET_HEAD_OPTIONS None
             (Text "")))
      [].
Proof using Hinst.
  intros Hm Hp.
  destruct (Construction.instance_built name env app Hinst) as [served ->].
  assert (∃ r, adapter_match the_map (PATH_INFO environ)
                 (QUERY_STRING environ) "OPTIONS" = Ok (r, [])
               ∧ provide_automatic_options r = true
               ∧ allowed_methods the_map (PATH_INFO environ)
                   (QUERY_STRING environ) = GET_HEAD_OPTIONS)
    as (r & Hr & Hauto & Hallowed).
  { unfold allowed_methods. destruct Hp as [-> | ->].
    - exists health_rule. by rewrite !Routing.adapter_match_health.
    - exists index_rule. by rewrite !Routing.adapter_match_index. }
  rewrite (Serving.served_options env name _ served environ r []).
  - rewrite Hm. unfold make_default_options_response.
    change (url_map (built _ _ _)) with the_map. by rewrite Hallowed.
  - by rewrite Hm.
  - done.
  - by rewrite Hm.
Qed.

End Instance.

End Views.

(** ** The specification, claim by claim *)

Module Claims.

Import Werkzeug Flask Ezy Built.

(** The example application is an instance of the factory: it is what
    [create_app] leaves in an empty store. *)
Lemma example_instance : instance "ezy" Example.env Example.app.
Proof.
  eapply (instance_created "ezy" Example.env ∅).
  - vm_compute. reflexivity.
  - vm_compute. reflexivity.
Defined.


















(** The two conditions on the path in C6 are needed as well: an empty
    path is redirected to [/], and leading slashes count as one. *)
Example empty_path_is_redirected :
  (wsgi_app Example.env Example.app (Example.request "GET" "")).1
  = mkServed
      (Ok (mkResponse 308 "text/html; charset=utf-8" ∅ (Some ("/", ""))
             (RedirectPage "/" "")))
      [].
Proof. vm_compute. reflexivity. Qed.

Example leading_slashes_count_as_one :
  (wsgi_app Example.env Example.app (Example.request "GET" "//health")).1
  = mkServed (Ok ok_response) ["health"].
Proof. vm_compute. reflexivity. Qed.

(** C7.  The factory takes no argument and always returns.  The
    instance it returns has the template folder [templates] and the static
    folder [static], both resolved against the root path of the package,
    and keeps them whatever happens afterwards: requests served by it or
    by other instances, and further calls of the factory. *)
Theorem factory_configuration_is_fixed (name : string) (env : Env)
    (σ : Store) (events : list Event) :
  ∃ l σ' app,
    create_app name env σ = (Ok l, σ')
    ∧ run name env events σ' !! l = Some app
    ∧ root_path app = get_root_path env name
    ∧ template_folder app = Some "templates"
    ∧ _static_folder app = Some "static"
    ∧ static_folder app
      = Some (Py.path_join (get_root_path env name) "static")
    ∧ ∀ n environ,
        render_template n env (app_ctx app) environ
        = match get_template env
                  (Py.path_join (get_root_path env name) "templates") n with
          | Ok t => render env t environ
          | Raise e => Raise e
          end.
Proof.
  destruct (Construction.run_built name env (fresh (dom σ)) events false
              (<[fresh (dom σ) := built name (get_root_path env name) false]> σ))
    as [served Hrun]; [apply lookup_insert_eq |].
  eexists _, _, _. split; [apply Construction.create_app_built |].
  split; [exact Hrun |]. by repeat split.
Qed.

(** C8, as the code has it.  Every GET request to [/health] is answered
    with the framework's default content type, [text/html] in UTF-8. *)
Theorem health_content_type_is_html (name : string) (env : Env) (app : App)
    (environ : Environ) :
  instance name env app →
  REQUEST_METHOD environ = "GET" → PATH_INFO environ = "/health" →
  ∃ r, outcome (wsgi_app env app environ).1 = Ok r
       ∧ content_type r = "text/html; charset=utf-8".
Proof.
  intros Hinst Hm Hp. rewrite (Views.health_get name env) by done.
  by exists ok_response.
Qed.

Lemma health_content_type_is_html_witness :
  ∃ r, outcome (wsgi_app Example.env Example.app
                  (Example.request "GET" "/health")).1 = Ok r
       ∧ content_type r = "text/html; charset=utf-8".
Proof.
  apply (health_content_type_is_html "ezy");
    [exact example_instance | reflexivity | reflexivity].
Defined.

(** C8 as stated fails: the content type of the answer to GET [/health]
    is not a plain-text one. *)
Lemma health_content_type_not_plain :
  ∃ r, outcome (wsgi_app Example.env Example.app
                  (Example.request "GET" "/health")).1 = Ok r
       ∧ content_type r = "text/html; charset=utf-8"
       ∧ Py.startswith "text/plain" (content_type r) = false.
Proof. eexists. repeat split; vm_compute; reflexivity. Qed.





End Claims.

(** ** Routing and dispatch, in full *)

Module Dispatch.

Import Werkzeug Flask Ezy Built.


(** The first attempt of the matcher on the route table, for a path that
    starts with a slash: which rule it can end in, and on which path. *)
Lemma first_match_rule (m q : string) (r : Rule) (values : list string)
    (hm hm' : gset string) :
  _match m ("" :: "" :: Py.split "/" q) (trie segments) [] hm
  = (RvRule r values, hm') →
  m ∈ GET_HEAD_OPTIONS
  ∧ ((r = health_rule ∧ values = [] ∧ q = "health")
     ∨ (r = index_rule ∧ values = [] ∧ q = "")
     ∨ (r = static_rule ∧ ∃ f, values = [f] ∧ q = "static/" +:+ f
                               ∧ part_matches PPath f = true)).
Proof.
  pose proof (PyFacts.join_split q) as Hq.
  pose proof (PyFacts.split_nonempty "/" q) as Hne.
  destruct (Py.split "/" q) as [|x rest]; [done |]. clear Hne.
  rewrite Routing.match_trie.
  destruct (decide (x = "")) as [-> | H0].
  { rewrite Routing.segments_index, Routing.match_leaf by done.
    destruct rest; [| done]. cbn [index_rule methods].
    case_bool_decide; [| done]. intros [= <- <-]. split; [done |].
    right. left. by rewrite <- Hq. }
  destruct (decide (x = "health")) as [-> | H1].
  { rewrite Routing.segments_health, Routing.match_leaf by done.
    destruct rest; [| done]. cbn [health_rule methods].
    case_bool_decide; [| done]. intros [= <- <-]. split; [done |].
    left. by rewrite <- Hq. }
  destruct (decide (x = "static")) as [-> | H2].
  { rewrite Routing.segments_static, Routing.match_static_state.
    destruct rest as [|y rest]; [done |].
    destruct (part_matches PPath (Py.join "/" (y :: rest))) eqn:Hf; [| done].
    case_bool_decide; [| done]. intros [= <- <-]. split; [done |].
    right. right. split; [done |]. exists (Py.join "/" (y :: rest)).
    by rewrite <- Hq. }
  by rewrite Routing.segments_other.
Qed.

(** An empty path matches no rule: at best it is one slash short of [/]. *)
Lemma first_match_empty (m : string) (hm : gset string) :
  _match m [""; ""] (trie segments) [] hm
  = (if bool_decide (m ∈ GET_HEAD_OPTIONS) then RvSlashRequired else RvNone,
     hm).
Proof.
  unfold trie. rewrite Routing.match_static_only, lookup_singleton_eq.
  rewrite Routing.match_static_only, lookup_singleton_eq.
  cbn [_match]. unfold match_end. cbn [st_rules st_static try_rules].
  rewrite Routing.segments_index. reflexivity.
Qed.

(** Every successful match of the route table: the rule, the arguments
    of the view, and the path it was found on. *)
Lemma adapter_match_ok (p qs m : string) (r : Rule)
    (args : list (string * string)) :
  adapter_match the_map p qs m = Ok (r, args) →
  Py.upper m ∈ GET_HEAD_OPTIONS
  ∧ ((r = health_rule ∧ args = [] ∧ path_part p = "/health")
     ∨ (r = index_rule ∧ args = [] ∧ path_part p = "/")
     ∨ (r = static_rule
        ∧ ∃ f, args = [("filename", f)] ∧ path_part p = "/static/" +:+ f
               ∧ part_matches PPath f = true)).
Proof.
  unfold adapter_match, matcher_match.
  cbn [the_map _matcher map_merge_slashes].
  destruct (_match (Py.upper m) ("" :: Py.split "/" (path_part p))
              (trie segments) [] ∅) as [rv hm] eqn:Hfirst.
  destruct rv as [|r' values|].
  - destruct (_match _ _ _ _ hm) as [[|r' values'|] hm']; [| | done].
    + by case_bool_decide.
    + destruct (merge_slashes r'); [done | by case_bool_decide].
  - intros [= <- <-]. unfold path_part in *.
    case_bool_decide as Hp.
    + change (Py.split "/" "") with [""] in Hfirst.
      rewrite first_match_empty in Hfirst. by case_bool_decide.
    + change ("/" +:+ Py.lstrip "/" p)
        with (String "/" (Py.lstrip "/" p)) in Hfirst.
      rewrite PyFacts.split_cons_sep in Hfirst.
      apply first_match_rule in Hfirst as [Hm Hcases]. split; [done |].
      destruct Hcases as [(-> & -> & ->) | [(-> & -> & ->) | (-> & f & -> & -> & Hf)]].
      * by left.
      * right. by left.
      * right. right. split; [done |]. by exists f.
  - done.
Qed.


(** The views called are those [dispatch_request] called. *)
Lemma built_called (env : Env) (name root : string) (served : bool)
    (environ : Environ) :
  called (wsgi_app env (built name root served) environ).1
  = (dispatch_request env (built name root true) environ
       (adapter_match the_map (PATH_INFO environ) (QUERY_STRING environ)
          (REQUEST_METHOD environ))).2.
Proof.
  unfold wsgi_app, full_dispatch_request.
  change (mkApp _ _ _ _ _ _ _ _ _ _ _ _) with (built name root true).
  change (url_map (built name root true)) with the_map.
  destruct (dispatch_request _ _ _ _) as [[v|e] calls]; [done |].
  by destruct (handle_user_exception _ e).
Qed.

End Dispatch.

(** ** Further properties of the factory and its views *)

Module Extras.

Import Werkzeug Flask Ezy Built.


Lemma upper_options_not_head (m : string) : Py.upper m = "OPTIONS" → m ≠ "HEAD".
Proof. by intros Hm ->. Qed.



Lemma in_GET_HEAD_OPTIONS (m : string) :
  m ∈ GET_HEAD_OPTIONS ↔ m = "GET" ∨ m = "HEAD" ∨ m = "OPTIONS".
Proof.
  unfold GET_HEAD_OPTIONS. rewrite !elem_of_union, !elem_of_singleton. tauto.
Qed.










(** X5.  A request calls at most one view, and each view runs for its own
    path only, on GET or HEAD: [health] for [/health], [index] for [/],
    and the framework's [static] view for [/static/] followed by a file
    name that is not empty and does not start with a slash. *)
Theorem views_run_for_their_own_path (name : string) (env : Env) (app : App)
    (environ : Environ) :
  instance name env app →
  let c := called (wsgi_app env app environ).1 in
  let p := path_part (PATH_INFO environ) in
  let m := Py.upper (REQUEST_METHOD environ) in
  c = []
  ∨ ((m = "GET" ∨ m = "HEAD")
     ∧ ((c = ["health"] ∧ p = "/health")
        ∨ (c = ["index"] ∧ p = "/")
        ∨ (c = ["static"]
           ∧ ∃ c0 rest, p = "/static/" +:+ String c0 rest
                        ∧ c0 ≠ "/"%char))).
Proof.
  intros Hinst c p m. subst c.
  destruct (Construction.instance_built name env app Hinst) as [s ->].
  rewrite Dispatch.built_called.
  destruct (adapter_match the_map _ _ _) as [[r args]|e] eqn:Hroute;
    [| by left].
  apply Dispatch.adapter_match_ok in Hroute as [Hm Hcases].
  cbn [dispatch_request].
  assert (provide_automatic_options r = true) as ->.
  { by destruct Hcases as [(-> & _) | [(-> & _) | (-> & _)]]. }
  cbn [andb]. fold m. case_bool_decide as Hopt; [by left |]. right.
  split.
  { fold m in Hm. apply in_GET_HEAD_OPTIONS in Hm. tauto. }
  fold p in Hcases.
  destruct Hcases as [(-> & -> & Hp) | [(-> & -> & Hp) | (-> & f & -> & Hp & Hf)]].
  - by left.
  - right. by left.
  - right. right. split; [done |].
    destruct f as [|c0 rest]; [done |]. exists c0, rest. split; [done |].
    cbn in Hf. intros ->. done.
Qed.

Lemma views_run_for_their_own_path_witness :
  called (wsgi_app Example.env Example.app
            (Example.request "GET" "/static/app.js")).1 = []
  ∨ ((Py.upper "GET" = "GET" ∨ Py.upper "GET" = "HEAD")
     ∧ ((called (wsgi_app Example.env Example.app
                   (Example.request "GET" "/static/app.js")).1 = ["health"]
         ∧ path_part "/static/app.js" = "/health")
        ∨ (called (wsgi_app Example.env Example.app
                     (Example.request "GET" "/static/app.js")).1 = ["index"]
           ∧ path_part "/static/app.js" = "/")
        ∨ (called (wsgi_app Example.env Example.app
                     (Example.request "GET" "/static/app.js")).1 = ["static"]
           ∧ ∃ c0 rest, path_part "/static/app.js"
                        = "/static/" +:+ String c0 rest
                        ∧ c0 ≠ "/"%char))).
Proof.
  apply (views_run_for_their_own_path "ezy" Example.env Example.app
           (Example.request "GET" "/static/app.js")).
  exact Claims.example_instance.
Defined.

(** X6.  A call of the factory never raises and touches nothing that
    exists: it returns an address that was free, the store grows by that
    one object, and every object that was in the store is still there,
    unchanged. *)
Theorem create_app_allocates_afresh (name : string) (env : Env) (σ : Store) :
  ∃ l σ',
    create_app name env σ = (Ok l, σ')
    ∧ σ !! l = None
    ∧ dom σ' = {[ l ]} ∪ dom σ
    ∧ ∀ l' app, σ !! l' = Some app → σ' !! l' = Some app.
Proof.
  eexists _, _. split; [apply Construction.create_app_built |].
  pose proof (Construction.fresh_not_in_store σ) as Hfresh.
  split; [done |]. split; [apply dom_insert_L |].
  intros l' app Hl'. rewrite lookup_insert_ne; [done |].
  intros Heq. rewrite Heq in Hfresh. congruence.
Qed.

End Extras.
